(** * gasex: dissolved-gas solubility, diffusivity and Schmidt number

    A shallow embedding of [gasex/sol.py] and [gasex/diff.py] and the
    properties checked against them.

    Modelling conventions.
    - A Python/NumPy float is a real number: [+ - *] are the operations of
      [R], [np.exp] is [exp], [np.log] is [ln], [x**2] is [x ^ 2].
      Rounding, overflow and the IEEE special values are outside this
      model, so the statements made in it are those that rounding leaves
      true: which branch is taken, which exception is raised, which formula
      is evaluated, signs, and inequalities between values that differ by
      far more than a rounding error.
    - A division of two Python floats is [truediv], which raises
      [ZeroDivisionError] on a zero divisor; the only one whose divisor can
      vanish is the Eyring exponent of [diff], at [pt = -273.15].  A
      division with a NumPy operand does not raise and is the division of
      [R]; [solubility_domain] shows its divisors and the arguments of
      [np.log] are in the domain over the ocean range.
    - Module [Double] is [gasex/diff.py] once more, in binary64 arithmetic
      with [np.exp] and the [gsw] functions as parameters; it is where the
      effects of rounding are computed.
    - A Python list is a [list R] read with [getitem], which raises
      [IndexError] out of range, as a subscript does.
    - A Python dict with string keys is a [gmap string _].
    - A call that can raise returns a [result]; the exceptions are the ones
      the interpreter itself produces for this code.
    - The recursion between [diff] and [schmidt] is bounded by [fuel], the
      number of Python frames left; running out is [RecursionError].
    - The [gsw] package (TEOS-10) is not part of the repository; its four
      functions are the fields of the class [GSW]. *)

From Stdlib Require Import Reals Lra Lia Floats.
From stdpp Require Import base option list gmap strings.

Set Warnings "-inexact-float".

Open Scope R_scope.

(** ** The Python runtime the two modules rely on *)

Module Py.

(** [UnsupportedGas] is the error of the specification's taxonomy; it is
    listed so that statements about it can be written.  The others are
    raised by the interpreter: by a list subscript, by a dict subscript, by
    reading a local that was never assigned, by the frame limit and by a
    division of Python floats by zero. *)
Inductive exn : Set :=
| IndexError
| KeyError
| UnboundLocalError
| RecursionError
| ZeroDivisionError
| UnsupportedGas.

Inductive result (A : Type) : Type :=
| Ok (v : A)
| Raise (e : exn).
Arguments Ok {A} v.
Arguments Raise {A} e.

#[global] Instance result_ret : MRet result := fun A v => Ok v.

#[global] Instance result_bind : MBind result := fun A B k m =>
  match m with
  | Ok v => k v
  | Raise e => Raise e
  end.

(** [l[i]] for a list and a non-negative literal index. *)
Definition getitem (l : list R) (i : nat) : result R :=
  match l !! i with
  | Some v => Ok v
  | None => Raise IndexError
  end.

(** [k in d.keys()] *)
Definition contains {V : Type} (d : gmap string V) (k : string) : bool :=
  bool_decide (is_Some (d !! k)).

(** [d[k]] for a dict. *)
Definition dict_getitem {V : Type} (d : gmap string V) (k : string) : result V :=
  match d !! k with
  | Some v => Ok v
  | None => Raise KeyError
  end.

Definition returns {A : Type} (m : result A) : Prop := exists v, m = Ok v.

(** [x / y] for two Python floats. *)
Definition truediv (x y : R) : result R :=
  if Req_dec_T y 0 then Raise ZeroDivisionError else Ok (x / y).

End Py.

Export Py.

Notation "l .[ i ]" := (getitem l i) (at level 1, format "l .[ i ]").

(** ** The external thermodynamic provider ([gsw]) *)

Class GSW : Type := {
  CT_from_pt : R -> R -> R;
  rho : R -> R -> R -> R;
  SP_from_SA : R -> R -> R -> R -> R;
  pt_from_CT : R -> R -> R
}.

(** A crude provider (constant density, no difference between the salinity
    and temperature variables) to run the functions at concrete inputs.  No
    theorem depends on its values. *)
Definition still_water : GSW := {|
  CT_from_pt := fun SA pt => pt;
  rho := fun SA CT p => 1000;
  SP_from_SA := fun SA p long lat => SA;
  pt_from_CT := fun SA CT => CT
|}.

(** Modelled from the spec: the decorator [match_args_return] of
    [gasex/_utilities.py], which is not among the sources.  Section 6 gives
    its contract: scalar arguments are passed to the function and a scalar is
    returned.  On scalars it is the identity. *)
Definition match_args_return {F : Type} (f : F) : F := f.

(** ** gasex/sol.py *)

Module Sol.

Definition __all__ : list string :=
  ["O2sol_SP_pt"; "Hesol_SP_pt"; "Nesol_SP_pt"; "Arsol_SP_pt";
   "Krsol_SP_pt"; "N2sol_SP_pt"; "N2Osol_SP_pt"; "O2sol"; "Hesol";
   "Nesol"; "Arsol"; "Krsol"; "N2sol"; "N2Osol"]%string.

Definition UNITS : string := "umol kg-1".

(** The coefficient lists are the locals [a], [b], [c] and [m] of each
    function, named after it. *)

(** Garcia and Gordon (1992), Table 1, second column. *)
Definition O2_a : list R :=
  [5.80871; 3.20291; 4.17887; 5.10006; -9.86643e-2; 3.80369].
Definition O2_b : list R :=
  [-7.01577e-3; -7.70028e-3; -1.13864e-2; -9.51519e-3].
Definition O2_c : R := -2.75915e-7.

Definition O2sol_SP_pt : R -> R -> result R :=
  match_args_return (fun SP pt =>
    let x := SP in
    let pt68 := pt * 1.00024 in
    let y := ln ((298.15 - pt68) / (273.15 + pt68)) in
    let a := O2_a in
    let b := O2_b in
    let c := O2_c in
    a0 ← a.[0]; a1 ← a.[1]; a2 ← a.[2]; a3 ← a.[3]; a4 ← a.[4]; a5 ← a.[5];
    b0 ← b.[0]; b1 ← b.[1]; b2 ← b.[2]; b3 ← b.[3];
    let lnC := a0 + y * (a1 + y * (a2 + y * (a3 + y * (a4 + a5 * y))))
               + x * (b0 + y * (b1 + y * (b2 + b3 * y)) + c * x) in
    mret (exp lnC)).

(** Weiss (1971), Table 3. *)
Definition He_a : list R := [-167.2178; 216.3442; 139.2032; -22.6202].
Definition He_b : list R := [-0.044781; 0.023541; -0.0034266].

Definition Hesol_SP_pt : R -> R -> result R :=
  match_args_return (fun SP pt =>
    let x := SP in
    let pt68 := pt * 1.00024 in
    let y := pt68 + 273.15 in
    let y_100 := y * 1e-2 in
    let a := He_a in
    let b := He_b in
    a0 ← a.[0]; a1 ← a.[1]; a2 ← a.[2]; a3 ← a.[3];
    b0 ← b.[0]; b1 ← b.[1]; b2 ← b.[2];
    let Hesol_mL := exp (a0 + a1 * 100 / y + a2 * ln y_100 + a3 * y_100
                         + x * (b0 + y_100 * (b1 + b2 * y_100))) in
    let Hesol := Hesol_mL * 4.455817671505537e1 in
    mret Hesol).

(** Hamme and Emerson (2004), Table 4. *)
Definition Ne_a : list R := [2.18156; 1.29108; 2.12504].
Definition Ne_b : list R := [-5.94737e-3; -5.13896e-3].

Definition Nesol_SP_pt : R -> R -> result R :=
  match_args_return (fun SP pt =>
    let x := SP in
    let y := ln ((298.15 - pt) / (273.15 + pt)) in
    let a := Ne_a in
    let b := Ne_b in
    a0 ← a.[0]; a1 ← a.[1]; a2 ← a.[2];
    b0 ← b.[0]; b1 ← b.[1];
    let Nesol := 1e3 * exp (a0 + y * (a1 + a2 * y) + x * (b0 + b1 * y)) in
    mret Nesol).

Definition Ar_a : list R := [2.79150; 3.17609; 4.13116; 4.90379].
Definition Ar_b : list R := [-6.96233e-3; -7.66670e-3; -1.16888e-2].

Definition Arsol_SP_pt : R -> R -> result R :=
  match_args_return (fun SP pt =>
    let x := SP in
    let y := ln ((298.15 - pt) / (273.15 + pt)) in
    let a := Ar_a in
    let b := Ar_b in
    a0 ← a.[0]; a1 ← a.[1]; a2 ← a.[2]; a3 ← a.[3];
    b0 ← b.[0]; b1 ← b.[1]; b2 ← b.[2];
    let Arsol := exp (a0 + y * (a1 + y * (a2 + a3 * y))
                      + x * (b0 + y * (b1 + b2 * y))) in
    mret Arsol).

(** Weiss and Kyser (1978), Table 2. *)
Definition Kr_a : list R := [-112.6840; 153.5817; 74.4690; -10.0189].
Definition Kr_b : list R := [-0.011213; -0.001844; 0.0011201].

Definition Krsol_SP_pt : R -> R -> result R :=
  match_args_return (fun SP pt =>
    let x := SP in
    let pt68 := pt * 1.00024 in
    let y := pt68 + 273.15 in
    let y_100 := y * 1e-2 in
    let a := Kr_a in
    let b := Kr_b in
    a0 ← a.[0]; a1 ← a.[1]; a2 ← a.[2]; a3 ← a.[3];
    b0 ← b.[0]; b1 ← b.[1]; b2 ← b.[2];
    let Krsol_mL := exp (a0 + a1 * 100 / y + a2 * ln y_100 + a3 * y_100
                         + x * (b0 + y_100 * (b1 + b2 * y_100))) in
    let Krsol := Krsol_mL * 4.474052731185490e1 in
    mret Krsol).

Definition N2_a : list R := [6.42931; 2.92704; 4.32531; 4.69149].
Definition N2_b : list R := [-7.44129e-3; -8.02566e-3; -1.46775e-2].

Definition N2sol_SP_pt : R -> R -> result R :=
  match_args_return (fun SP pt =>
    let x := SP in
    let y := ln ((298.15 - pt) / (273.15 + pt)) in
    let a := N2_a in
    let b := N2_b in
    a0 ← a.[0]; a1 ← a.[1]; a2 ← a.[2]; a3 ← a.[3];
    b0 ← b.[0]; b1 ← b.[1]; b2 ← b.[2];
    let N2sol := exp (a0 + y * (a1 + y * (a2 + a3 * y))
                      + x * (b0 + y * (b1 + b2 * y))) in
    mret N2sol).

(** Weiss and Price (1980), Table 2.  The function assigns [a] and [b]
    twice: first the mol L-1 atm-1 coefficients, then the mol kg-1 atm-1
    ones, which are those in force when the formula is evaluated.  The
    second [b] is written [[-0.060361 + 0.033765, -0.0051862]]: a list of
    two numbers, the first of them a sum. *)
Definition N2O_a_molL : list R := [-165.8806; 222.8743; 92.0792; -1.48425].
Definition N2O_b_molL : list R := [-0.056235; 0.031619; -0.0048472].
Definition N2O_a : list R := [-168.2459; 226.0894; 93.2817; -1.48693].
Definition N2O_b : list R := [-0.060361 + 0.033765; -0.0051862].
Definition N2O_m : list R := [24.4543; 67.4509; 4.8489; 0.000544].

Definition N2Osol_SP_pt : R -> R -> result R :=
  match_args_return (fun SP pt =>
    let x := SP in
    let pt68 := pt * 1.00024 in
    let y := pt68 + 273.15 in
    let y_100 := y * 1e-2 in
    let a := N2O_a_molL in
    let b := N2O_b_molL in
    let a := N2O_a in
    let b := N2O_b in
    let m := N2O_m in
    m0 ← m.[0]; m1 ← m.[1]; m2 ← m.[2]; m3 ← m.[3];
    let ph2odP := exp (m0 - m1 * 100 / y - m2 * ln y_100 - m3 * x) in
    a0 ← a.[0]; a1 ← a.[1]; a2 ← a.[2]; a3 ← a.[3];
    b0 ← b.[0]; b1 ← b.[1]; b2 ← b.[2];
    let N2Osol := exp (a0 + a1 * 100 / y + a2 * ln y_100 + a3 * y_100 ^ 2
                       + x * (b0 + y_100 * (b1 + b2 * y_100)))
                  / (1 - ph2odP) in
    mret N2Osol).

(** Weiss and Price (1980), Table 6. *)
Definition CO2_a : list R := [-162.8301; 218.2968; 90.9241; -1.47696].
Definition CO2_b : list R := [0.025695; -0.025225; 0.0049867].

Definition CO2sol_SP_pt : R -> R -> result R :=
  match_args_return (fun SP pt =>
    let x := SP in
    let pt68 := pt * 1.00024 in
    let y := pt68 + 273.15 in
    let y_100 := y * 1e-2 in
    let a := CO2_a in
    let b := CO2_b in
    a0 ← a.[0]; a1 ← a.[1]; a2 ← a.[2]; a3 ← a.[3];
    b0 ← b.[0]; b1 ← b.[1]; b2 ← b.[2];
    let CO2sol := exp (a0 + a1 * 100 / y + a2 * ln y_100 + a3 * y_100 ^ 2
                       + x * (b0 + b1 * y_100 + b2 * y_100 ^ 2)) in
    mret CO2sol).

Section SA_CT.
Context {G : GSW}.

(** Every gas has a second entry point on Absolute Salinity and
    Conservative Temperature. *)
Definition O2sol : R -> R -> R -> R -> R -> result R :=
  match_args_return (fun SA CT p long lat =>
    let SP := SP_from_SA SA p long lat in
    let pt := pt_from_CT SA CT in
    O2sol_SP_pt SP pt).

Definition Hesol : R -> R -> R -> R -> R -> result R :=
  match_args_return (fun SA CT p long lat =>
    let SP := SP_from_SA SA p long lat in
    let pt := pt_from_CT SA CT in
    Hesol_SP_pt SP pt).

Definition Nesol : R -> R -> R -> R -> R -> result R :=
  match_args_return (fun SA CT p long lat =>
    let SP := SP_from_SA SA p long lat in
    let pt := pt_from_CT SA CT in
    Nesol_SP_pt SP pt).

Definition Arsol : R -> R -> R -> R -> R -> result R :=
  match_args_return (fun SA CT p long lat =>
    let SP := SP_from_SA SA p long lat in
    let pt := pt_from_CT SA CT in
    Arsol_SP_pt SP pt).

Definition Krsol : R -> R -> R -> R -> R -> result R :=
  match_args_return (fun SA CT p long lat =>
    let SP := SP_from_SA SA p long lat in
    let pt := pt_from_CT SA CT in
    Krsol_SP_pt SP pt).

Definition N2sol : R -> R -> R -> R -> R -> result R :=
  match_args_return (fun SA CT p long lat =>
    let SP := SP_from_SA SA p long lat in
    let pt := pt_from_CT SA CT in
    N2sol_SP_pt SP pt).

Definition N2Osol : R -> R -> R -> R -> R -> result R :=
  match_args_return (fun SA CT p long lat =>
    let SP := SP_from_SA SA p long lat in
    let pt := pt_from_CT SA CT in
    N2Osol_SP_pt SP pt).

Definition CO2sol : R -> R -> R -> R -> R -> result R :=
  match_args_return (fun SA CT p long lat =>
    let SP := SP_from_SA SA p long lat in
    let pt := pt_from_CT SA CT in
    CO2sol_SP_pt SP pt).

(** What a name of the module is bound to. *)
Inductive callable : Type :=
  | SP_pt_function (f : R -> R -> result R)
  | SA_CT_function (f : R -> R -> R -> R -> R -> result R).

(** The functions the module defines, in the order of their [def]s. *)
Definition defs : list (string * callable) :=
  [("O2sol_SP_pt", SP_pt_function O2sol_SP_pt);
   ("O2sol", SA_CT_function O2sol);
   ("Hesol_SP_pt", SP_pt_function Hesol_SP_pt);
   ("Hesol", SA_CT_function Hesol);
   ("Nesol_SP_pt", SP_pt_function Nesol_SP_pt);
   ("Nesol", SA_CT_function Nesol);
   ("Arsol_SP_pt", SP_pt_function Arsol_SP_pt);
   ("Arsol", SA_CT_function Arsol);
   ("Krsol_SP_pt", SP_pt_function Krsol_SP_pt);
   ("Krsol", SA_CT_function Krsol);
   ("N2sol_SP_pt", SP_pt_function N2sol_SP_pt);
   ("N2sol", SA_CT_function N2sol);
   ("N2Osol_SP_pt", SP_pt_function N2Osol_SP_pt);
   ("N2Osol", SA_CT_function N2Osol);
   ("CO2sol_SP_pt", SP_pt_function CO2sol_SP_pt);
   ("CO2sol", SA_CT_function CO2sol)]%string.

End SA_CT.

End Sol.
(** ** gasex/diff.py *)

Module Diff.

(** The local dict [AEa_dict] of [diff]: pre-exponential factor and
    activation energy of the Eyring fit, per gas. *)
Definition AEa_dict : gmap string (list R) :=
  list_to_map
    [("O2", [4.286e-6; 18700]);
     ("He", [0.8180e-6; 11700]);
     ("Ne", [1.6080e-6; 14840]);
     ("Ar", [2.227e-6; 16680]);
     ("Kr", [6.3930e-6; 20200]);
     ("Xe", [9.0070e-6; 21610]);
     ("N2", [3.4120e-6; 18500]);
     ("CH4", [3.0470e-6; 18360]);
     ("CO2", [5.0190e-6; 19510]);
     ("H2", [3.3380e-6; 16060])]%string.

Section Provider.
Context {G : GSW}.

Definition visc (SP pt : R) : R :=
  let SA := SP * 35.16504 / 35 in
  let CT := CT_from_pt SA pt in
  let dens := rho SA CT 0 in
  let visc := 1e-4 * (17.91 - 0.5381 * pt + 0.00694 * pt ^ 2 + 0.02305 * SP)
              / dens in
  visc.

(** [diff] and [schmidt] call each other; [fuel] counts the frames that
    may still be entered.  A function that reaches [return D] with [D]
    unassigned raises [UnboundLocalError].  The quotient [q] is the argument
    of [np.exp], a division of Python floats; the quotients by [Sc] and [D]
    have NumPy operands. *)
Fixpoint diff (fuel : nat) (SP pt : R) (gas : string) {struct fuel}
  : result R :=
  match fuel with
  | O => Raise RecursionError
  | S fuel =>
    let R := 8.314510 in
    if contains AEa_dict gas then
      AEa ← dict_getitem AEa_dict gas;
      A ← AEa.[0];
      Ea ← AEa.[1];
      q ← truediv (- Ea) (R * (pt + 273.15));
      let D0 := A * exp q in
      let D := D0 * (1 - 0.049 * SP / 35.5) in
      mret D
    else if String.eqb gas "CO2" then
      Sc ← schmidt fuel SP pt "CO2";
      let D := visc SP pt / Sc in
      mret D
    else
      Raise UnboundLocalError
  end
with schmidt (fuel : nat) (SP pt : R) (gas : string) {struct fuel}
  : result R :=
  match fuel with
  | O => Raise RecursionError
  | S fuel =>
    D ← diff fuel SP pt gas;
    let Sc := visc SP pt / D in
    mret Sc
  end.

End Provider.

End Diff.

(** ** gasex/diff.py in binary64 arithmetic *)

Module Double.

Local Open Scope float_scope.

Definition getitem (l : list float) (i : nat) : result float :=
  match l !! i with
  | Some v => Ok v
  | None => Raise IndexError
  end.

(** [x / y] for two Python floats. *)
Definition truediv (x y : float) : result float :=
  if PrimFloat.eqb y 0 then Raise ZeroDivisionError else Ok (x / y).

Definition AEa_dict : gmap string (list float) :=
  list_to_map
    [("O2", [4.286e-6; 18700]);
     ("He", [0.8180e-6; 11700]);
     ("Ne", [1.6080e-6; 14840]);
     ("Ar", [2.227e-6; 16680]);
     ("Kr", [6.3930e-6; 20200]);
     ("Xe", [9.0070e-6; 21610]);
     ("N2", [3.4120e-6; 18500]);
     ("CH4", [3.0470e-6; 18360]);
     ("CO2", [5.0190e-6; 19510]);
     ("H2", [3.3380e-6; 16060])]%string.

Section External.

(** [np.exp] on a double, the C library's [pow], which [**] calls on
    Python floats, and the two [gsw] functions [visc] calls. *)
Variable np_exp : float -> float.
Variable pow : float -> float -> float.
Variable CT_from_pt : float -> float -> float.
Variable rho : float -> float -> float -> float.

Definition visc (SP pt : float) : float :=
  let SA := SP * 35.16504 / 35 in
  let CT := CT_from_pt SA pt in
  let dens := rho SA CT 0 in
  let visc := 1e-4 * (17.91 - 0.5381 * pt + 0.00694 * pow pt 2 + 0.02305 * SP)
              / dens in
  visc.

Fixpoint diff (fuel : nat) (SP pt : float) (gas : string) {struct fuel}
  : result float :=
  match fuel with
  | O => Raise RecursionError
  | S fuel =>
    let R := 8.314510 in
    if contains AEa_dict gas then
      AEa ← dict_getitem AEa_dict gas;
      A ← getitem AEa 0;
      Ea ← getitem AEa 1;
      q ← truediv (- Ea) (R * (pt + 273.15));
      let D0 := A * np_exp q in
      let D := D0 * (1 - 0.049 * SP / 35.5) in
      mret D
    else if String.eqb gas "CO2" then
      Sc ← schmidt fuel SP pt "CO2";
      let D := visc SP pt / Sc in
      mret D
    else
      Raise UnboundLocalError
  end
with schmidt (fuel : nat) (SP pt : float) (gas : string) {struct fuel}
  : result float :=
  match fuel with
  | O => Raise RecursionError
  | S fuel =>
    D ← diff fuel SP pt gas;
    let Sc := visc SP pt / D in
    mret Sc
  end.

End External.

End Double.

Import Sol Diff.

(** ** The formulas of the specification

    These follow the words of the specification, not the code; the theorems
    compare the two. *)

(** Section 4.2: [D = A·exp(−Ea/(R·(T_C+273.15)))·(1 − 0.049·SP/35.5)] with
    [R = 8.314510]. *)
Definition arrhenius_spec (A Ea SP pt : R) : R :=
  A * exp (- Ea / (8.314510 * (pt + 273.15))) * (1 - 0.049 * SP / 35.5).

(** The row of the activation-energy table that the specification calls
    shadowed. *)
Definition CO2_row_spec : list R := [5.0190e-6; 19510].

(** Section 4.3, family 1: [y = ln((298.15 − T)/(273.15 + T))], and
    [T68 = T · 1.00024]. *)
Definition log_temperature_spec (T : R) : R :=
  ln ((298.15 - T) / (273.15 + T)).

Definition T68_spec (T : R) : R := T * 1.00024.

(** A polynomial in [y] given by its coefficients, lowest degree first. *)
Definition horner (coeffs : list R) (y : R) : R :=
  foldr (fun c acc => c + y * acc) 0 coeffs.

(** Family 1: [ln C = a(y) + SP·(b(y) + c·SP)]. *)
Definition family1_spec (a b : list R) (c : R) (y SP : R) : R :=
  horner a y + SP * (horner b y + c * SP).

(** Section 4.3, family 2 with the square of [y100]:
    [a0 + a1·(100/y) + a2·ln(y100) + a3·y100² + SP·(b0 + y100·(b1 + y100·b2))]
    with [y = T68 + 273.15] and [y100 = y/100]. *)
Definition weiss_lnC_spec (a0 a1 a2 a3 b0 b1 b2 : R) (SP pt : R) : R :=
  let y := T68_spec pt + 273.15 in
  let y100 := y / 100 in
  a0 + a1 * (100 / y) + a2 * ln y100 + a3 * y100 ^ 2
  + SP * (b0 + y100 * (b1 + y100 * b2)).

(** The moist-air term: [exp(m0 − m1·100/y − m2·ln(y100) − m3·SP)] with
    [m = [24.4543, 67.4509, 4.8489, 0.000544]]. *)
Definition ph2odP_spec (SP pt : R) : R :=
  let y := T68_spec pt + 273.15 in
  let y100 := y / 100 in
  exp (24.4543 - 67.4509 * 100 / y - 4.8489 * ln y100 - 0.000544 * SP).

(** N2O with the mol kg-1 atm-1 coefficients of Weiss and Price (1980),
    Table 2: three salinity coefficients, -0.060361, 0.033765 and
    -0.0051862. *)
Definition N2Osol_spec (SP pt : R) : R :=
  exp (weiss_lnC_spec (-168.2459) 226.0894 93.2817 (-1.48693)
                      (-0.060361) 0.033765 (-0.0051862) SP pt)
  / (1 - ph2odP_spec SP pt).

(** The seven gases whose solubility functions the module exports, and the
    ten gases of the diffusivity table. *)
Definition exported_gases : list string :=
  ["O2"; "He"; "Ne"; "Ar"; "Kr"; "N2"; "N2O"]%string.

Definition table_gases : list string :=
  ["O2"; "He"; "Ne"; "Ar"; "Kr"; "Xe"; "N2"; "CH4"; "CO2"; "H2"]%string.

(** ** Running the model *)

Example getitem_in_range : [1; 2; 3].[2] = Ok 3.
Proof. reflexivity. Qed.

Example getitem_out_of_range : [1; 2].[2] = Raise IndexError.
Proof. reflexivity. Qed.

Example AEa_dict_O2 : AEa_dict !! "O2"%string = Some [4.286e-6; 18700].
Proof. reflexivity. Qed.

Example AEa_dict_no_N2O : contains AEa_dict "N2O" = false.
Proof. reflexivity. Qed.

Example diff_out_of_frames : diff (G := still_water) 0 35 20 "O2" = Raise RecursionError.
Proof. reflexivity. Qed.

Example schmidt_O2_one_frame :
  schmidt (G := still_water) 1 35 20 "O2" = Raise RecursionError.
Proof. reflexivity. Qed.

Example visc_still_water :
  visc (G := still_water) 0 0 = 1e-4 * 17.91 / 1000.
Proof. unfold visc. simpl. lra. Qed.

(** In binary64 the salinity factor of [diff] is 1 at [SP = 1e-20] and 0 at
    [SP = 724.4897959183673], and [-273.15 + 273.15] is zero. *)
Example double_salinity_factor :
  (1 - 0.049 * 1e-20 / 35.5 = 1)%float /\
  (1 - 0.049 * 724.4897959183673 / 35.5 = 0)%float /\
  Double.truediv (-18700) (8.314510 * (-273.15 + 273.15)) = Raise ZeroDivisionError.
Proof. repeat split. Qed.

(** ** Lemmas on the runtime *)

Lemma contains_true {V : Type} (d : gmap string V) (k : string) :
  contains d k = true <-> is_Some (d !! k).
Proof. unfold contains. rewrite bool_decide_eq_true. reflexivity. Qed.

Lemma contains_false {V : Type} (d : gmap string V) (k : string) :
  contains d k = false <-> d !! k = None.
Proof.
  unfold contains. rewrite bool_decide_eq_false, eq_None_not_Some. reflexivity.
Qed.

Lemma bind_Ok {A B : Type} (v : A) (k : A -> result B) : Ok v ≫= k = k v.
Proof. reflexivity. Qed.

Lemma bind_Raise {A B : Type} (e : exn) (k : A -> result B) :
  Raise e ≫= k = Raise e.
Proof. reflexivity. Qed.

(** A [KeyError] cannot follow a successful membership test. *)
Lemma dict_getitem_contains {V : Type} (d : gmap string V) (k : string) :
  contains d k = true -> returns (dict_getitem d k).
Proof.
  rewrite contains_true. intros [v Hv]. exists v.
  unfold dict_getitem. rewrite Hv. reflexivity.
Qed.

Lemma truediv_nonzero (x y : R) : y <> 0 -> truediv x y = Ok (x / y).
Proof.
  intros Hy. unfold truediv. destruct (Req_dec_T y 0) as [Hz | _].
  - contradiction.
  - reflexivity.
Qed.

Lemma truediv_zero (x y : R) : y = 0 -> truediv x y = Raise ZeroDivisionError.
Proof.
  intros Hy. unfold truediv. destruct (Req_dec_T y 0) as [_ | Hnz].
  - reflexivity.
  - contradiction.
Qed.

(** ** Lemmas on the diffusivity table *)

(** Every row has two entries and a positive pre-exponential factor. *)
Lemma AEa_dict_rows (gas : string) (AEa : list R) :
  AEa_dict !! gas = Some AEa ->
  exists A Ea, AEa = [A; Ea] /\ 0 < A.
Proof.
  unfold AEa_dict. intros H.
  apply elem_of_list_to_map_2 in H.
  repeat (apply elem_of_cons in H as [H|H];
          [injection H as -> ->; eexists _, _; split; [reflexivity|lra] |]).
  apply elem_of_nil in H. destruct H.
Qed.

(** Every activation energy lies between 11700 and 21610 J/mol. *)
Lemma AEa_dict_rows_pos (gas : string) (AEa : list R) :
  AEa_dict !! gas = Some AEa ->
  exists A Ea, AEa = [A; Ea] /\ 0 < A /\ 11700 <= Ea <= 21610.
Proof.
  unfold AEa_dict. intros H.
  apply elem_of_list_to_map_2 in H.
  repeat (apply elem_of_cons in H as [H|H];
          [injection H as -> ->; eexists _, _;
           split; [reflexivity | split; lra] |]).
  apply elem_of_nil in H. destruct H.
Qed.

Lemma AEa_dict_keys (gas : string) :
  contains AEa_dict gas = true <-> gas ∈ table_gases.
Proof.
  rewrite contains_true. unfold table_gases. split.
  - intros [AEa H]. unfold AEa_dict in H.
    apply elem_of_list_to_map_2 in H.
    repeat (apply elem_of_cons in H as [H|H];
            [injection H as -> _; set_solver |]).
    apply elem_of_nil in H. destruct H.
  - intros H.
    repeat (apply elem_of_cons in H as [->|H]; [eexists; reflexivity |]).
    apply elem_of_nil in H. destruct H.
Qed.

Section Diffusivity.
Context {G : GSW}.

(** The divisor of the Eyring exponent vanishes at absolute zero only. *)
Lemma diff_divisor (pt : R) :
  pt <> -273.15 <-> 8.314510 * (pt + 273.15) <> 0.
Proof. split; intros Hpt Hz; apply Hpt; lra. Qed.

(** A gas with a row in the table takes the first branch, whatever the
    number of frames left beyond the one [diff] itself occupies and whatever
    the provider. *)
Lemma diff_row_truediv (fuel : nat) (SP pt : R) (gas : string) (A Ea : R) :
  AEa_dict !! gas = Some [A; Ea] ->
  diff (S fuel) SP pt gas
  = truediv (- Ea) (8.314510 * (pt + 273.15)) ≫= fun q =>
      Ok (A * exp q * (1 - 0.049 * SP / 35.5)).
Proof.
  intros H.
  assert (Hc : contains AEa_dict gas = true) by (apply contains_true; eauto).
  change (diff (S fuel) SP pt gas)
    with (if contains AEa_dict gas then
            dict_getitem AEa_dict gas ≫= fun AEa =>
            AEa.[0] ≫= fun A =>
            AEa.[1] ≫= fun Ea =>
            truediv (- Ea) (8.314510 * (pt + 273.15)) ≫= fun q =>
            mret (A * exp q * (1 - 0.049 * SP / 35.5))
          else if String.eqb gas "CO2" then
            schmidt fuel SP pt "CO2" ≫= fun Sc => mret (visc SP pt / Sc)
          else Raise UnboundLocalError).
  rewrite Hc. unfold dict_getitem. rewrite H. reflexivity.
Qed.

Lemma diff_row (fuel : nat) (SP pt : R) (gas : string) (A Ea : R) :
  AEa_dict !! gas = Some [A; Ea] ->
  pt <> -273.15 ->
  diff (S fuel) SP pt gas = Ok (arrhenius_spec A Ea SP pt).
Proof.
  intros H Hpt. rewrite (diff_row_truediv fuel SP pt gas A Ea H).
  rewrite truediv_nonzero by (apply diff_divisor; exact Hpt).
  reflexivity.
Qed.

Lemma diff_row_absolute_zero (fuel : nat) (SP : R) (gas : string) (A Ea : R) :
  AEa_dict !! gas = Some [A; Ea] ->
  diff (S fuel) SP (-273.15) gas = Raise ZeroDivisionError.
Proof.
  intros H. rewrite (diff_row_truediv fuel SP _ gas A Ea H).
  rewrite truediv_zero by lra. reflexivity.
Qed.

(** A gas without a row falls through both tests. *)
Lemma diff_no_row (fuel : nat) (SP pt : R) (gas : string) :
  contains AEa_dict gas = false ->
  diff (S fuel) SP pt gas = Raise UnboundLocalError.
Proof.
  intros Hc. simpl. rewrite Hc.
  destruct (String.eqb_spec gas "CO2") as [->|Hne].
  - discriminate Hc.
  - reflexivity.
Qed.

Lemma schmidt_unfold (fuel : nat) (SP pt : R) (gas : string) :
  schmidt (S fuel) SP pt gas
  = diff fuel SP pt gas ≫= fun D => mret (visc SP pt / D).
Proof. reflexivity. Qed.

(** The value of a table gas, with what is known of its row. *)
Lemma diff_table_gas (gas : string) :
  contains AEa_dict gas = true ->
  exists A Ea, 0 < A /\ 11700 <= Ea <= 21610 /\
    (forall n SP pt, pt <> -273.15 ->
       diff (S n) SP pt gas = Ok (arrhenius_spec A Ea SP pt)) /\
    (forall n SP, diff (S n) SP (-273.15) gas = Raise ZeroDivisionError).
Proof.
  intros Hc. apply contains_true in Hc as [AEa HAEa].
  destruct (AEa_dict_rows_pos gas AEa HAEa) as (A & Ea & -> & HA & HEa).
  exists A, Ea. repeat split; try lra.
  - intros n SP pt Hpt. apply diff_row; assumption.
  - intros n SP. apply (diff_row_absolute_zero n SP gas A Ea HAEa).
Qed.

Lemma arrhenius_spec_pos (A Ea SP pt : R) :
  0 < A -> SP < 35.5 / 0.049 -> 0 < arrhenius_spec A Ea SP pt.
Proof.
  intros HA HSP. unfold arrhenius_spec.
  pose proof (exp_pos (- Ea / (8.314510 * (pt + 273.15)))) as He.
  apply Rmult_lt_0_compat; [apply Rmult_lt_0_compat; assumption | lra].
Qed.

Lemma arrhenius_spec_decreasing (A Ea pt SP1 SP2 : R) :
  0 < A -> SP1 < SP2 ->
  arrhenius_spec A Ea SP2 pt < arrhenius_spec A Ea SP1 pt.
Proof.
  intros HA HSP. unfold arrhenius_spec.
  pose proof (exp_pos (- Ea / (8.314510 * (pt + 273.15)))) as He.
  apply Rmult_lt_compat_l; [apply Rmult_lt_0_compat; assumption | lra].
Qed.

Lemma arrhenius_spec_increasing_in_pt (A Ea SP pt1 pt2 : R) :
  0 < A -> 0 < Ea -> 0.049 * SP < 35.5 ->
  -273.15 < pt1 -> pt1 < pt2 ->
  arrhenius_spec A Ea SP pt1 < arrhenius_spec A Ea SP pt2.
Proof.
  intros HA HEa HSP Hpt1 Hlt. unfold arrhenius_spec.
  apply Rmult_lt_compat_r; [lra|].
  apply Rmult_lt_compat_l; [assumption|].
  apply exp_increasing.
  assert (HK1 : 0 < 8.314510 * (pt1 + 273.15)) by lra.
  assert (HK2 : 0 < 8.314510 * (pt2 + 273.15)) by lra.
  assert (Hinv : / (8.314510 * (pt2 + 273.15)) < / (8.314510 * (pt1 + 273.15))).
  { apply Rinv_lt_contravar; [apply Rmult_lt_0_compat; assumption | lra]. }
  unfold Rdiv. nra.
Qed.

End Diffusivity.

Example diff_O2_one_frame :
  diff (G := still_water) 1 35 20 "O2" = Ok (arrhenius_spec 4.286e-6 18700 35 20).
Proof. apply diff_row; [reflexivity | lra]. Qed.

Example diff_O2_absolute_zero :
  diff (G := still_water) 1 35 (-273.15) "O2" = Raise ZeroDivisionError.
Proof. apply (diff_row_absolute_zero 0 35 "O2" 4.286e-6 18700). reflexivity. Qed.

(** ** Diffusivity and Schmidt number: the claims *)

Section DiffusivityClaims.
Context {G : GSW}.

(** C1 (as amended).  For every salinity and every temperature other than
    -273.15, [diff] computes the diffusion coefficient of 'CO2' in the first
    branch, from the CO2 row [5.0190e-6, 19510] of the table: the result is
    the Arrhenius expression of that row, and it is reached with a single
    frame, so that [schmidt] is not called.  At -273.15 that branch raises
    [ZeroDivisionError].  The branch [elif gas == 'CO2'] is dead: a gas that
    fails the membership test is not 'CO2'. *)
Theorem diff_CO2_uses_table_row (fuel : nat) (SP pt : R) :
  AEa_dict !! "CO2"%string = Some CO2_row_spec /\
  (pt <> -273.15 ->
   diff 1 SP pt "CO2" = Ok (arrhenius_spec 5.0190e-6 19510 SP pt) /\
   diff (S fuel) SP pt "CO2" = Ok (arrhenius_spec 5.0190e-6 19510 SP pt)) /\
  diff (S fuel) SP (-273.15) "CO2" = Raise ZeroDivisionError /\
  forall gas : string,
    contains AEa_dict gas || negb (String.eqb gas "CO2") = true.
Proof.
  assert (Hrow : AEa_dict !! "CO2"%string = Some [5.0190e-6; 19510])
    by reflexivity.
  split; [reflexivity|].
  split; [intros Hpt; split; apply diff_row; assumption|].
  split; [apply (diff_row_absolute_zero fuel SP "CO2" _ _ Hrow)|].
  intros gas. destruct (String.eqb_spec gas "CO2") as [->|Hne].
  - reflexivity.
  - apply orb_true_r.
Qed.

(** C4 (as amended).  For each of the ten gases of the table, every
    salinity and every temperature other than -273.15, [diff] returns a
    value; at -273.15 it raises [ZeroDivisionError]; 'N2O' is not in the
    table and [diff] ends in [UnboundLocalError] for it. *)
Theorem diff_defined_on_table_not_N2O (fuel : nat) (SP pt : R) :
  Forall (fun gas =>
            (pt <> -273.15 -> returns (diff (S fuel) SP pt gas)) /\
            diff (S fuel) SP (-273.15) gas = Raise ZeroDivisionError)
    table_gases /\
  contains AEa_dict "N2O" = false /\
  diff (S fuel) SP pt "N2O" = Raise UnboundLocalError.
Proof.
  split; [|split; reflexivity].
  apply Forall_forall. intros gas Hin.
  apply AEa_dict_keys in Hin.
  destruct (diff_table_gas gas Hin) as (A & Ea & _ & _ & Hok & Hzero).
  split.
  - intros Hpt. eexists. apply Hok. exact Hpt.
  - apply Hzero.
Qed.



(** C9 (as amended).  For every gas of the Arrhenius table and every fixed
    temperature above -273.15, the diffusion coefficient does not increase
    as the salinity increases from any value [SP1 >= 0]; over the ocean
    range, [pt] in [-2, 40] and salinities up to 40, it strictly decreases
    between salinities at least 1 apart. *)
Theorem diff_nonincreasing_in_SP
    (gas : string) (fuel : nat) (pt SP1 SP2 : R) :
  contains AEa_dict gas = true ->
  -273.15 < pt ->
  0 <= SP1 -> SP1 < SP2 ->
  exists D1 D2 : R,
    diff (S fuel) SP1 pt gas = Ok D1 /\
    diff (S fuel) SP2 pt gas = Ok D2 /\
    D2 <= D1 /\
    (-2 <= pt <= 40 -> SP1 + 1 <= SP2 -> SP2 <= 40 -> D2 < D1).
Proof.
  intros Hc Hpt _ Hlt.
  destruct (diff_table_gas gas Hc) as (A & Ea & HA & _ & Hok & _).
  exists (arrhenius_spec A Ea SP1 pt), (arrhenius_spec A Ea SP2 pt).
  pose proof (arrhenius_spec_decreasing A Ea pt SP1 SP2 HA Hlt) as Hdec.
  split; [apply Hok; lra|].
  split; [apply Hok; lra|].
  split; [lra|].
  intros _ _ _. exact Hdec.
Qed.

(** Up to the salinities of the ocean the diffusion coefficient is
    positive. *)
Lemma diff_positive (gas : string) (fuel : nat) (SP pt : R) :
  contains AEa_dict gas = true ->
  pt <> -273.15 ->
  SP <= 40 ->
  exists D : R, diff (S fuel) SP pt gas = Ok D /\ 0 < D.
Proof.
  intros Hc Hpt HSP.
  destruct (diff_table_gas gas Hc) as (A & Ea & HA & _ & Hok & _).
  exists (arrhenius_spec A Ea SP pt).
  split; [apply Hok; exact Hpt|].
  apply arrhenius_spec_pos; [assumption | lra].
Qed.

End DiffusivityClaims.

(** C1, the claim as stated, fails at [SP = 35], [pt = 20]: there
    [diff(SP, pt, 'CO2')] is the Arrhenius expression of the CO2 row. *)
Lemma diff_CO2_equals_arrhenius_at_35_20 :
  diff (G := still_water) 1000 35 20 "CO2"
  = Ok (5.0190e-6 * exp (- 19510 / (8.314510 * (20 + 273.15)))
        * (1 - 0.049 * 35 / 35.5)).
Proof.
  apply (diff_row (G := still_water) 999 35 20 "CO2" 5.0190e-6 19510).
  - reflexivity.
  - lra.
Qed.

Lemma diff_CO2_uses_table_row_witness :
  20 <> -273.15 /\
  diff (G := still_water) 1 35 20 "CO2"
  = Ok (arrhenius_spec 5.0190e-6 19510 35 20) /\
  diff (G := still_water) 1000 35 20 "CO2"
  = Ok (arrhenius_spec 5.0190e-6 19510 35 20).
Proof.
  split; [lra|].
  apply (proj1 (proj2 (diff_CO2_uses_table_row (G := still_water) 999 35 20))).
  lra.
Defined.

(** C4, the claim as stated, fails at gas 'N2O', [SP = 35], [pt = 20]:
    [diff] returns no value there. *)
Lemma diff_N2O_undefined_at_35_20 :
  diff (G := still_water) 1000 35 20 "N2O" = Raise UnboundLocalError /\
  ~ returns (diff (G := still_water) 1000 35 20 "N2O").
Proof.
  split; [reflexivity|].
  intros [v Hv]. discriminate Hv.
Qed.

Lemma diff_defined_on_table_not_N2O_witness :
  20 <> -273.15 /\
  Forall (fun gas => returns (diff (G := still_water) 1 35 20 gas)) table_gases.
Proof.
  split; [lra|].
  pose proof (proj1 (diff_defined_on_table_not_N2O (G := still_water) 0 35 20))
    as Hall.
  eapply Forall_impl; [exact Hall|].
  intros gas [Hret _]. apply Hret. lra.
Defined.





(** C9, the claim as stated, fails in binary64 arithmetic at gas 'O2',
    [pt = 20] and the salinities 0 and 1e-20: the salinity factor rounds to
    1 at both, and [diff] returns the same [D], whatever [np.exp] returns. *)
Lemma diff_double_ties_at_neighbouring_SP :
  PrimFloat.ltb 0 1e-20 = true /\
  forall (np_exp : float -> float)
         (pow : float -> float -> float)
         (CT_from_pt : float -> float -> float)
         (rho : float -> float -> float -> float),
    Double.diff np_exp pow CT_from_pt rho 1 0 20 "O2"
    = Ok (4.286e-6 * np_exp (-18700 / (8.314510 * (20 + 273.15))) * 1)%float /\
    Double.diff np_exp pow CT_from_pt rho 1 1e-20 20 "O2"
    = Double.diff np_exp pow CT_from_pt rho 1 0 20 "O2".
Proof.
  split; [reflexivity|].
  intros np_exp pow CT_from_pt rho. split; reflexivity.
Qed.

Lemma diff_nonincreasing_in_SP_witness :
  contains AEa_dict "O2" = true /\ -273.15 < 20 /\ 0 <= 0 /\ 0 < 35 /\
  exists D1 D2 : R,
    diff (G := still_water) 1 0 20 "O2" = Ok D1 /\
    diff (G := still_water) 1 35 20 "O2" = Ok D2 /\
    D2 <= D1 /\
    (-2 <= 20 <= 40 -> 0 + 1 <= 35 -> 35 <= 40 -> D2 < D1).
Proof.
  split; [reflexivity|].
  split; [lra|].
  split; [lra|].
  split; [lra|].
  apply (diff_nonincreasing_in_SP (G := still_water) "O2" 0 20 0 35).
  - reflexivity.
  - lra.
  - lra.
  - lra.
Defined.

(** ** Solubility: the claims *)

(** Unfolds a solubility function down to its arithmetic. *)
Ltac run_sol :=
  cbv [O2sol_SP_pt Hesol_SP_pt Nesol_SP_pt Arsol_SP_pt Krsol_SP_pt
       N2sol_SP_pt N2Osol_SP_pt CO2sol_SP_pt match_args_return
       O2_a O2_b O2_c He_a He_b Ne_a Ne_b Ar_a Ar_b Kr_a Kr_b N2_a N2_b
       N2O_a N2O_b N2O_a_molL N2O_b_molL N2O_m CO2_a CO2_b
       getitem lookup list_lookup mbind mret result_bind result_ret].

(** The list [b] in force in [N2Osol_SP_pt] has two entries, and the
    subscript [b[2]] is out of range. *)
Lemma N2O_b_two_entries :
  length N2O_b = 2%nat /\
  N2O_b.[0] = Ok (-0.060361 + 0.033765) /\
  N2O_b.[1] = Ok (-0.0051862) /\
  N2O_b.[2] = Raise IndexError.
Proof. repeat split. Qed.

(** C2.  [N2Osol_SP_pt] returns no value: for every salinity and
    temperature, and so on [SP] in [0, 40], [pt] in [-2, 40], it raises
    [IndexError] at the subscript [b[2]]. *)
Theorem N2Osol_SP_pt_raises_IndexError (SP pt : R) :
  N2Osol_SP_pt SP pt = Raise IndexError.
Proof. reflexivity. Qed.

(** C3.  [N2Osol_SP_pt] does not return the value of the Weiss and Price
    formula with three salinity coefficients: the second assignment of [b]
    has a [+] where the table has a comma, the list has two entries, and the
    function raises [IndexError] instead of returning. *)
Theorem N2Osol_SP_pt_misses_weiss_price (SP pt : R) :
  N2O_b = [-0.060361 + 0.033765; -0.0051862] /\
  length N2O_b_molL = 3%nat /\
  length N2O_b = 2%nat /\
  N2Osol_SP_pt SP pt <> Ok (N2Osol_spec SP pt).
Proof.
  repeat split. discriminate.
Qed.

(** C7 (as amended).  Ne is evaluated with three [a] coefficients, a
    quadratic in [y], and two [b] coefficients, a salinity term linear in
    [y]; Ar and N2 have four and three.  [y = ln((298.15 − pt)/(273.15 + pt))]. *)
Theorem Nesol_SP_pt_quadratic_linear (SP pt : R) :
  let y := ln ((298.15 - pt) / (273.15 + pt)) in
  (length Ne_a, length Ne_b) = (3%nat, 2%nat) /\
  (length Ar_a, length Ar_b) = (4%nat, 3%nat) /\
  (length N2_a, length N2_b) = (4%nat, 3%nat) /\
  Nesol_SP_pt SP pt
  = Ok (1e3 * exp (2.18156 + y * (1.29108 + 2.12504 * y)
                   + SP * (-5.94737e-3 + -5.13896e-3 * y))) /\
  Arsol_SP_pt SP pt
  = Ok (exp (2.79150 + y * (3.17609 + y * (4.13116 + 4.90379 * y))
             + SP * (-6.96233e-3 + y * (-7.66670e-3 + -1.16888e-2 * y)))) /\
  N2sol_SP_pt SP pt
  = Ok (exp (6.42931 + y * (2.92704 + y * (4.32531 + 4.69149 * y))
             + SP * (-7.44129e-3 + y * (-8.02566e-3 + -1.46775e-2 * y)))).
Proof. repeat split. Qed.

(** C7, the claim as stated, fails: the lists of Ne do not have four and
    three entries, and their lengths are not those of Ar nor of N2. *)
Lemma Ne_shape_differs_from_Ar_N2 :
  (length Ne_a, length Ne_b) <> (4%nat, 3%nat) /\
  (length Ne_a, length Ne_b) <> (length Ar_a, length Ar_b) /\
  (length Ne_a, length Ne_b) <> (length N2_a, length N2_b) /\
  Ne_a.[3] = Raise IndexError /\
  Ne_b.[2] = Raise IndexError.
Proof. repeat split; discriminate. Qed.

(** C8.  O2 forms [y] from the temperature converted to the 1968 scale;
    Ne, Ar and N2 form it from the temperature as given. *)
Theorem O2_converts_to_1968_Ne_Ar_N2_do_not (SP pt : R) :
  O2sol_SP_pt SP pt
  = Ok (exp (family1_spec O2_a O2_b O2_c
               (log_temperature_spec (T68_spec pt)) SP)) /\
  Nesol_SP_pt SP pt
  = Ok (1e3 * exp (family1_spec Ne_a Ne_b 0 (log_temperature_spec pt) SP)) /\
  Arsol_SP_pt SP pt
  = Ok (exp (family1_spec Ar_a Ar_b 0 (log_temperature_spec pt) SP)) /\
  N2sol_SP_pt SP pt
  = Ok (exp (family1_spec N2_a N2_b 0 (log_temperature_spec pt) SP)).
Proof.
  unfold family1_spec, horner, log_temperature_spec, T68_spec.
  repeat split; run_sol; simpl; do 2 f_equal; try f_equal; ring.
Qed.

(** The conversion is not a change of notation: away from 0 °C the two
    scales give different values of [y]. *)
Lemma T68_changes_y (pt : R) :
  -2 <= pt <= 40 -> pt <> 0 ->
  log_temperature_spec (T68_spec pt) <> log_temperature_spec pt.
Proof.
  intros Hpt Hne Heq. unfold log_temperature_spec, T68_spec in Heq.
  apply ln_inv in Heq.
  - apply Hne.
    assert (Hcross : (298.15 - pt * 1.00024) * (273.15 + pt)
                     = (298.15 - pt) * (273.15 + pt * 1.00024)).
    { apply (Rmult_eq_compat_r ((273.15 + pt * 1.00024) * (273.15 + pt))) in Heq.
      field_simplify in Heq; lra. }
    lra.
  - apply Rdiv_lt_0_compat; lra.
  - apply Rdiv_lt_0_compat; lra.
Qed.

(** C10.  [__all__] is the list of the [_SP_pt] functions of O2, He, Ne, Ar,
    Kr, N2 and N2O followed by their Absolute-Salinity forms; each name is
    defined in the module; [CO2sol_SP_pt] and [CO2sol] are defined too and
    are not in the list. *)
Theorem all_exports_seven_gases_not_CO2 {G : GSW} :
  __all__
  = ((fun gas => gas +:+ "sol_SP_pt") <$> exported_gases)
    ++ ((fun gas => gas +:+ "sol") <$> exported_gases) /\
  NoDup __all__ /\
  Forall (fun name => name ∈ defs.*1) __all__ /\
  filter (fun name => name ∉ __all__) defs.*1
  = ["CO2sol_SP_pt"; "CO2sol"]%string /\
  defs !! 14%nat = Some ("CO2sol_SP_pt"%string, SP_pt_function CO2sol_SP_pt) /\
  defs !! 15%nat = Some ("CO2sol"%string, SA_CT_function CO2sol).
Proof.
  split; [reflexivity|].
  split; [apply (bool_decide_unpack _); vm_compute; exact I|].
  split; [|split; [reflexivity | split; reflexivity]].
  unfold __all__.
  repeat (apply Forall_cons; split;
          [apply (bool_decide_unpack _); vm_compute; exact I|]).
  apply Forall_nil_2.
Qed.

(** ** What holds around the N2O defect *)

(** The other seven solubility functions return a positive value for every
    salinity and temperature. *)
Lemma other_solubilities_positive (SP pt : R) :
  Forall (fun f : R -> R -> result R => exists v, f SP pt = Ok v /\ 0 < v)
    [O2sol_SP_pt; Hesol_SP_pt; Nesol_SP_pt; Arsol_SP_pt; Krsol_SP_pt;
     N2sol_SP_pt; CO2sol_SP_pt].
Proof.
  repeat (apply Forall_cons; split;
          [run_sol; eexists; split; [reflexivity|];
           first [apply exp_pos
                 | apply Rmult_lt_0_compat; first [apply exp_pos | lra]] |]).
  apply Forall_nil_2.
Qed.

(** On [SP] in [0, 40] and [pt] in [-2, 40] the arguments of [np.log] are
    positive and the divisors are not zero, in both temperature scales. *)
Lemma solubility_domain (pt : R) :
  -2 <= pt <= 40 ->
  0 < (298.15 - pt) / (273.15 + pt) /\
  0 < (298.15 - pt * 1.00024) / (273.15 + pt * 1.00024) /\
  271 < pt * 1.00024 + 273.15 < 313.16 /\
  2.71 < (pt * 1.00024 + 273.15) * 1e-2 < 3.1316.
Proof.
  intros Hpt.
  split; [apply Rdiv_lt_0_compat; lra|].
  split; [apply Rdiv_lt_0_compat; lra|].
  lra.
Qed.

(** The sibling [CO2sol_SP_pt] reads three salinity coefficients and is the
    formula of family 2. *)
Lemma CO2sol_SP_pt_weiss (SP pt : R) :
  pt * 1.00024 + 273.15 <> 0 ->
  CO2sol_SP_pt SP pt
  = Ok (exp (weiss_lnC_spec (-162.8301) 218.2968 90.9241 (-1.47696)
                            0.025695 (-0.025225) 0.0049867 SP pt)).
Proof.
  intros Hy. unfold weiss_lnC_spec, T68_spec. run_sol. simpl.
  do 2 f_equal.
  replace ((pt * 1.00024 + 273.15) * 1e-2) with ((pt * 1.00024 + 273.15) / 100)
    by lra.
  field. exact Hy.
Qed.

Lemma exp_061_lt_27 : exp 0.61 < 2.7.
Proof.
  pose proof (exp_ineq1_le (- 0.61)) as Hlow.
  pose proof (exp_pos 0.61) as Hpos.
  assert (Hinv : exp 0.61 * exp (- 0.61) = 1).
  { rewrite <- exp_plus. replace (0.61 + - 0.61) with 0 by lra. apply exp_0. }
  nra.
Qed.

(** The partial pressure of water vapour stays below the total pressure. *)
Lemma ph2odP_spec_lt_1 (SP pt : R) :
  0 <= SP <= 40 -> -2 <= pt <= 40 ->
  0 < ph2odP_spec SP pt < 1.
Proof.
  intros HSP Hpt. unfold ph2odP_spec, T68_spec.
  set (y := pt * 1.00024 + 273.15).
  assert (Hy : 271 < y < 313.16) by (unfold y; lra).
  split; [apply exp_pos|].
  rewrite <- exp_0. apply exp_increasing.
  assert (Hln : 0.61 < ln (y / 100)).
  { rewrite <- (ln_exp 0.61). apply ln_increasing; [apply exp_pos|].
    pose proof exp_061_lt_27. lra. }
  assert (Hdiv : 21.538 < 67.4509 * 100 / y).
  { assert (Hmul : 67.4509 * 100 / y * y = 67.4509 * 100) by (field; lra).
    nra. }
  lra.
Qed.

(** With the three coefficients of the table the N2O formula is positive on
    [SP] in [0, 40], [pt] in [-2, 40]. *)
Lemma N2Osol_spec_positive (SP pt : R) :
  0 <= SP <= 40 -> -2 <= pt <= 40 ->
  0 < N2Osol_spec SP pt.
Proof.
  intros HSP Hpt. unfold N2Osol_spec.
  pose proof (ph2odP_spec_lt_1 SP pt HSP Hpt) as Hp.
  apply Rdiv_lt_0_compat; [apply exp_pos | lra].
Qed.

(** The Absolute-Salinity form of N2O fails in the same way. *)
Lemma N2Osol_raises_IndexError {G : GSW} (SA CT p long lat : R) :
  N2Osol SA CT p long lat = Raise IndexError.
Proof. reflexivity. Qed.


(** ** Further properties of gasex/diff.py *)

(** The quadratic in [pt] of [visc] has no real root. *)
Lemma visc_polynomial_pos (SP pt : R) :
  0 <= SP -> 7.4 < 17.91 - 0.5381 * pt + 0.00694 * pt ^ 2 + 0.02305 * SP.
Proof.
  intros HSP.
  pose proof (pow2_ge_0 (0.00694 * pt - 0.26905)) as Hsq.
  nra.
Qed.

Section DiffusivityExtras.
Context {G : GSW}.

(** X1.  With one frame [diff] gives, for every gas, the result it gives
    with any number of frames and under any provider, and it is never
    [RecursionError]: [diff] does not call [schmidt] or [visc], whatever the
    gas. *)
Theorem diff_never_calls_schmidt
    (G' : GSW) (gas : string) (fuel : nat) (SP pt : R) :
  diff (G := G) (S fuel) SP pt gas = diff (G := G') 1 SP pt gas /\
  diff (G := G) (S fuel) SP pt gas <> Raise RecursionError.
Proof.
  destruct (contains AEa_dict gas) eqn:Hc.
  - apply contains_true in Hc as [AEa HAEa].
    destruct (AEa_dict_rows gas AEa HAEa) as (A & Ea & -> & _).
    rewrite (diff_row_truediv (G := G) fuel SP pt gas A Ea HAEa).
    rewrite (diff_row_truediv (G := G') 0 SP pt gas A Ea HAEa).
    split; [reflexivity|].
    unfold truediv. destruct (Req_dec_T (8.314510 * (pt + 273.15)) 0);
      discriminate.
  - rewrite !diff_no_row by exact Hc. split; [reflexivity | discriminate].
Qed.


(** X4.  The salinity correction of a table gas is a factor on the
    freshwater value: at every temperature other than -273.15,
    [diff(SP) = diff(0)·(1 − 0.049·SP/35.5)]. *)
Theorem diff_salinity_factor (gas : string) (fuel : nat) (SP pt : R) :
  contains AEa_dict gas = true ->
  pt <> -273.15 ->
  exists D0 : R,
    diff (S fuel) 0 pt gas = Ok D0 /\
    diff (S fuel) SP pt gas = Ok (D0 * (1 - 0.049 * SP / 35.5)).
Proof.
  intros Hc Hpt.
  destruct (diff_table_gas gas Hc) as (A & Ea & _ & _ & Hok & _).
  exists (A * exp (- Ea / (8.314510 * (pt + 273.15)))).
  rewrite !Hok by exact Hpt. unfold arrhenius_spec.
  split; [f_equal; lra | reflexivity].
Qed.

(** X5.  Over the ocean temperatures, [pt] in [-2, 40], the diffusion
    coefficient of a table gas is positive for salinities up to 724 and
    negative from 725 on: the linear correction is not clamped, and changes
    sign near [35.5/0.049]. *)
Theorem diff_sign (gas : string) (fuel : nat) (SP pt : R) :
  contains AEa_dict gas = true ->
  -2 <= pt <= 40 ->
  exists D : R,
    diff (S fuel) SP pt gas = Ok D /\
    (SP <= 724 -> 0 < D) /\
    (725 <= SP -> D < 0).
Proof.
  intros Hc Hpt.
  destruct (diff_table_gas gas Hc) as (A & Ea & HA & _ & Hok & _).
  exists (arrhenius_spec A Ea SP pt). split; [apply Hok; lra|].
  unfold arrhenius_spec.
  pose proof (exp_pos (- Ea / (8.314510 * (pt + 273.15)))) as He.
  assert (HD0 : 0 < A * exp (- Ea / (8.314510 * (pt + 273.15))))
    by (apply Rmult_lt_0_compat; assumption).
  set (D0 := A * exp (- Ea / (8.314510 * (pt + 273.15)))) in *.
  split; intros H; nra.
Qed.

(** X6.  Over the ocean range, [pt] in [-2, 40] and [SP] in [0, 40], the
    diffusion coefficient of a table gas is strictly larger at a
    temperature at least 1 degree higher. *)
Theorem diff_strictly_increasing_in_pt
    (gas : string) (fuel : nat) (SP pt1 pt2 : R) :
  contains AEa_dict gas = true ->
  0 <= SP <= 40 ->
  -2 <= pt1 -> pt1 + 1 <= pt2 -> pt2 <= 40 ->
  exists D1 D2 : R,
    diff (S fuel) SP pt1 gas = Ok D1 /\
    diff (S fuel) SP pt2 gas = Ok D2 /\
    D1 < D2.
Proof.
  intros Hc HSP Hpt1 Hgap Hpt2.
  destruct (diff_table_gas gas Hc) as (A & Ea & HA & HEa & Hok & _).
  exists (arrhenius_spec A Ea SP pt1), (arrhenius_spec A Ea SP pt2).
  split; [apply Hok; lra|]. split; [apply Hok; lra|].
  apply arrhenius_spec_increasing_in_pt; lra.
Qed.


(** X8.  Over the ocean range, [pt] in [-2, 40] and [SP] in [0, 40], and
    under the same condition on the density, the Schmidt number of a table
    gas is positive. *)
Theorem schmidt_positive (gas : string) (fuel : nat) (SP pt : R) :
  contains AEa_dict gas = true ->
  0 <= SP <= 40 -> -2 <= pt <= 40 ->
  0 < rho (SP * 35.16504 / 35) (CT_from_pt (SP * 35.16504 / 35) pt) 0 ->
  exists Sc : R, schmidt (S (S fuel)) SP pt gas = Ok Sc /\ 0 < Sc.
Proof.
  intros Hc HSP Hpt Hrho.
  destruct (diff_table_gas gas Hc) as (A & Ea & HA & _ & Hok & _).
  exists (visc SP pt / arrhenius_spec A Ea SP pt).
  rewrite schmidt_unfold, Hok by lra. split; [reflexivity|].
  apply Rdiv_lt_0_compat.
  - unfold visc.
    pose proof (visc_polynomial_pos SP pt ltac:(lra)) as Hpoly.
    apply Rdiv_lt_0_compat; [|exact Hrho].
    apply Rmult_lt_0_compat; lra.
  - apply arrhenius_spec_pos; [assumption | lra].
Qed.

End DiffusivityExtras.

(** X9.  For densities between 900 and 1100 and salinities of [0, 40],
    [visc] times the density it was divided by is strictly smaller at a
    temperature at least half a degree higher as long as that temperature
    is at most 38.7 °C, and strictly larger from 38.8 °C on (up to 100 °C):
    the quadratic fit turns around inside the range of ocean
    temperatures. *)
Theorem visc_times_density_turning_point
    {G : GSW} (SP pt1 pt2 : R) :
  let dens pt := rho (SP * 35.16504 / 35) (CT_from_pt (SP * 35.16504 / 35) pt) 0 in
  900 <= dens pt1 <= 1100 -> 900 <= dens pt2 <= 1100 ->
  0 <= SP <= 40 ->
  -2 <= pt1 -> pt1 + 0.5 <= pt2 -> pt2 <= 100 ->
  (pt2 <= 38.7 -> visc SP pt2 * dens pt2 < visc SP pt1 * dens pt1) /\
  (38.8 <= pt1 -> visc SP pt1 * dens pt1 < visc SP pt2 * dens pt2).
Proof.
  intros dens Hd1 Hd2 HSP Hpt1 Hgap Hpt2. unfold visc.
  fold (dens pt1) (dens pt2).
  replace (1e-4 * (17.91 - 0.5381 * pt1 + 0.00694 * pt1 ^ 2 + 0.02305 * SP)
           / dens pt1 * dens pt1)
    with (1e-4 * (17.91 - 0.5381 * pt1 + 0.00694 * pt1 ^ 2 + 0.02305 * SP))
    by (field; lra).
  replace (1e-4 * (17.91 - 0.5381 * pt2 + 0.00694 * pt2 ^ 2 + 0.02305 * SP)
           / dens pt2 * dens pt2)
    with (1e-4 * (17.91 - 0.5381 * pt2 + 0.00694 * pt2 ^ 2 + 0.02305 * SP))
    by (field; lra).
  split; intros Hb; nra.
Qed.

(** ** Further properties of gasex/sol.py *)

Ltac sol_pair :=
  run_sol; eexists _, _; split; [reflexivity|]; split; [reflexivity|].

Lemma lt_of_sub_pos (a b : R) : 0 < b - a -> a < b.
Proof. lra. Qed.

Lemma exp_bounds_quarter : 1.2 < exp 0.2 /\ exp (- 0.25) < 0.8.
Proof.
  split.
  - pose proof (exp_ineq1 0.2). lra.
  - pose proof (exp_ineq1 0.25) as Hup.
    pose proof (exp_pos (- 0.25)) as Hpos.
    assert (Hinv : exp 0.25 * exp (- 0.25) = 1).
    { rewrite <- exp_plus. replace (0.25 + - 0.25) with 0 by lra. apply exp_0. }
    nra.
Qed.

(** Over the ocean temperatures, in either scale, [y] stays between -0.25
    and 0.2. *)
Lemma log_ratio_bounds (T : R) :
  -2.01 <= T <= 40.01 ->
  -0.25 < ln ((298.15 - T) / (273.15 + T)) < 0.2.
Proof.
  intros HT. destruct exp_bounds_quarter as [Hup Hlow].
  assert (Hr : 0.8 < (298.15 - T) / (273.15 + T) < 1.2).
  { assert (Hmul : (298.15 - T) / (273.15 + T) * (273.15 + T) = 298.15 - T)
      by (field; lra).
    split; nra. }
  split.
  - rewrite <- (ln_exp (-0.25)). apply ln_increasing; [apply exp_pos | lra].
  - rewrite <- (ln_exp 0.2). apply ln_increasing; lra.
Qed.

(** [y] decreases as the temperature rises. *)
Lemma log_ratio_decreasing (T1 T2 : R) :
  -273.15 < T1 -> T1 < T2 -> T2 < 298.15 ->
  ln ((298.15 - T2) / (273.15 + T2)) < ln ((298.15 - T1) / (273.15 + T1)).
Proof.
  intros H1 Hlt H2.
  assert (Hm1 : (298.15 - T1) / (273.15 + T1) * (273.15 + T1) = 298.15 - T1)
    by (field; lra).
  assert (Hm2 : (298.15 - T2) / (273.15 + T2) * (273.15 + T2) = 298.15 - T2)
    by (field; lra).
  assert (Hp2 : 0 < (298.15 - T2) / (273.15 + T2))
    by (apply Rdiv_lt_0_compat; lra).
  apply ln_increasing; [exact Hp2|].
  nra.
Qed.

Lemma quartic_form_nonneg (u v : R) :
  0 <= u ^ 4 + u ^ 3 * v + u ^ 2 * v ^ 2 + u * v ^ 3 + v ^ 4.
Proof.
  replace (u ^ 4 + u ^ 3 * v + u ^ 2 * v ^ 2 + u * v ^ 3 + v ^ 4)
    with ((u ^ 2 + u * v / 2) ^ 2 + v ^ 2 * ((v + u / 2) ^ 2 + u ^ 2 / 2))
    by field.
  pose proof (pow2_ge_0 (u ^ 2 + u * v / 2)).
  pose proof (pow2_ge_0 v). pose proof (pow2_ge_0 (v + u / 2)).
  pose proof (pow2_ge_0 u).
  assert (0 <= v ^ 2 * ((v + u / 2) ^ 2 + u ^ 2 / 2)) by (apply Rmult_le_pos; lra).
  lra.
Qed.

Lemma quadratic_form_bounds (u v : R) :
  -0.25 < u < 0.2 -> -0.25 < v < 0.2 ->
  0 <= u ^ 2 + u * v + v ^ 2 <= 0.1875.
Proof.
  intros Hu Hv.
  pose proof (pow2_ge_0 (u + v / 2)). pose proof (pow2_ge_0 v).
  split; nra.
Qed.

Lemma ln_step (z1 z2 : R) :
  0 < z1 -> z1 < z2 -> ln z2 - ln z1 <= (z2 - z1) / z1.
Proof.
  intros Hz1 Hlt.
  assert (Hq : 0 < z2 / z1) by (apply Rdiv_lt_0_compat; lra).
  assert (Hln : ln (z2 / z1) = ln z2 - ln z1).
  { unfold Rdiv. rewrite ln_mult, ln_Rinv by (try apply Rinv_0_lt_compat; lra).
    lra. }
  pose proof (exp_ineq1_le (ln (z2 / z1))) as He.
  rewrite exp_ln in He by exact Hq.
  replace ((z2 - z1) / z1) with (z2 / z1 - 1) by (field; lra).
  lra.
Qed.


(** X10.  On [SP] in [0, 40] and [pt] in [-2, 40], where every argument of
    [np.log] is positive and no divisor is zero, the seven solubility
    functions other than N2O read their coefficients within range and
    return a positive value. *)
Theorem solubilities_positive_on_ocean_range (SP pt : R) :
  0 <= SP <= 40 -> -2 <= pt <= 40 ->
  Forall (fun f : R -> R -> result R => exists v, f SP pt = Ok v /\ 0 < v)
    [O2sol_SP_pt; Hesol_SP_pt; Nesol_SP_pt; Arsol_SP_pt; Krsol_SP_pt;
     N2sol_SP_pt; CO2sol_SP_pt].
Proof.
  intros _ _.
  repeat (apply Forall_cons; split;
          [run_sol; eexists; split; [reflexivity|];
           first [apply exp_pos
                 | apply Rmult_lt_0_compat; first [apply exp_pos | lra]] |]).
  apply Forall_nil_2.
Qed.

(** X11.  Salting out, log-temperature family: at a fixed temperature of
    [-2, 40] and for salinities of [0, 40], the solubilities of O2, Ne, Ar
    and N2 are strictly smaller at a salinity at least 1 higher. *)
Theorem salting_out_log_family (SP1 SP2 pt : R) :
  0 <= SP1 -> SP1 + 1 <= SP2 -> SP2 <= 40 -> -2 <= pt <= 40 ->
  Forall (fun f : R -> R -> result R =>
            exists v1 v2, f SP1 pt = Ok v1 /\ f SP2 pt = Ok v2 /\ v2 < v1)
    [O2sol_SP_pt; Nesol_SP_pt; Arsol_SP_pt; N2sol_SP_pt].
Proof.
  intros H0 Hgap H40 Hpt.
  assert (Hlt : SP1 < SP2) by lra.
  pose proof (log_ratio_bounds pt ltac:(lra)) as Hy.
  pose proof (log_ratio_bounds (pt * 1.00024) ltac:(lra)) as Hy68.
  set (y := ln ((298.15 - pt) / (273.15 + pt))) in *.
  set (y68 := ln ((298.15 - pt * 1.00024) / (273.15 + pt * 1.00024))) in *.
  repeat (apply Forall_cons; split; [sol_pair|]); [| | | |apply Forall_nil_2].
  - fold y68. apply exp_increasing.
    assert (Hb : -7.01577e-3
                 + y68 * (-7.70028e-3 + y68 * (-1.13864e-2 + -9.51519e-3 * y68))
                 < -0.004) by nra.
    nra.
  - fold y. apply Rmult_lt_compat_l; [lra|]. apply exp_increasing. nra.
  - fold y. apply exp_increasing.
    assert (Hb : -6.96233e-3 + y * (-7.66670e-3 + -1.16888e-2 * y) < 0) by nra.
    nra.
  - fold y. apply exp_increasing.
    assert (Hb : -7.44129e-3 + y * (-8.02566e-3 + -1.46775e-2 * y) < 0) by nra.
    nra.
Qed.

(** X12.  Salting out, inverse-temperature family: at a fixed temperature
    of [-2, 40] and for salinities of [0, 40], the solubilities of He, Kr
    and CO2 are strictly smaller at a salinity at least 1 higher. *)
Theorem salting_out_weiss_family (SP1 SP2 pt : R) :
  0 <= SP1 -> SP1 + 1 <= SP2 -> SP2 <= 40 -> -2 <= pt <= 40 ->
  Forall (fun f : R -> R -> result R =>
            exists v1 v2, f SP1 pt = Ok v1 /\ f SP2 pt = Ok v2 /\ v2 < v1)
    [Hesol_SP_pt; Krsol_SP_pt; CO2sol_SP_pt].
Proof.
  intros H0 Hgap H40 Hpt.
  assert (Hlt : SP1 < SP2) by lra.
  assert (Hz : 2.71 < (pt * 1.00024 + 273.15) * 1e-2 < 3.14) by lra.
  set (z := (pt * 1.00024 + 273.15) * 1e-2) in *.
  assert (Hprod : 0 < (z - 2.71) * (3.14 - z))
    by (apply Rmult_lt_0_compat; lra).
  repeat (apply Forall_cons; split; [sol_pair|]); [| | |apply Forall_nil_2].
  - fold z. apply Rmult_lt_compat_r; [lra|]. apply exp_increasing.
    assert (Hb : -0.044781 + z * (0.023541 + -0.0034266 * z) < 0) by nra.
    nra.
  - fold z. apply Rmult_lt_compat_r; [lra|]. apply exp_increasing.
    assert (Hb : -0.011213 + z * (-0.001844 + 0.0011201 * z) < 0) by nra.
    nra.
  - fold z. apply exp_increasing.
    assert (Hb : 0.025695 + -0.025225 * z + 0.0049867 * z ^ 2 < 0) by nra.
    nra.
Qed.

(** X13.  Degassing with warming: at a fixed salinity of [0, 40] and
    within [-2, 40], the solubilities of Ne, Ar and N2 are strictly smaller
    at a temperature at least 1 degree higher. *)
Theorem warming_degasses_Ne_Ar_N2 (SP pt1 pt2 : R) :
  0 <= SP <= 40 -> -2 <= pt1 -> pt1 + 1 <= pt2 -> pt2 <= 40 ->
  Forall (fun f : R -> R -> result R =>
            exists v1 v2, f SP pt1 = Ok v1 /\ f SP pt2 = Ok v2 /\ v2 < v1)
    [Nesol_SP_pt; Arsol_SP_pt; N2sol_SP_pt].
Proof.
  intros HSP H1 Hgap H2.
  assert (Hlt : pt1 < pt2) by lra.
  pose proof (log_ratio_bounds pt1 ltac:(lra)) as Hy1.
  pose proof (log_ratio_bounds pt2 ltac:(lra)) as Hy2.
  pose proof (log_ratio_decreasing pt1 pt2 ltac:(lra) Hlt ltac:(lra)) as Hdec.
  set (y1 := ln ((298.15 - pt1) / (273.15 + pt1))) in *.
  set (y2 := ln ((298.15 - pt2) / (273.15 + pt2))) in *.
  pose proof (quadratic_form_bounds y1 y2 Hy1 Hy2) as Hq.
  assert (Hxs : 0 <= SP * (0.4 - (y1 + y2))) by (apply Rmult_le_pos; lra).
  assert (Hxs' : 0 <= SP * (y1 + y2 + 0.5)) by (apply Rmult_le_pos; lra).
  repeat (apply Forall_cons; split; [sol_pair|]); [| | |apply Forall_nil_2].
  - fold y1 y2. apply Rmult_lt_compat_l; [lra|]. apply exp_increasing.
    apply lt_of_sub_pos.
    match goal with |- 0 < ?e =>
      replace e
        with ((y1 - y2) * (1.29108 + 2.12504 * (y1 + y2) + SP * -5.13896e-3))
        by ring
    end.
    apply Rmult_lt_0_compat; lra.
  - fold y1 y2. apply exp_increasing. apply lt_of_sub_pos.
    match goal with |- 0 < ?e =>
      replace e
        with ((y1 - y2)
              * (3.17609 + 4.13116 * (y1 + y2)
                 + 4.90379 * (y1 ^ 2 + y1 * y2 + y2 ^ 2)
                 + SP * (-7.66670e-3 + -1.16888e-2 * (y1 + y2))))
        by ring
    end.
    apply Rmult_lt_0_compat; [lra | nra].
  - fold y1 y2. apply exp_increasing. apply lt_of_sub_pos.
    match goal with |- 0 < ?e =>
      replace e
        with ((y1 - y2)
              * (2.92704 + 4.32531 * (y1 + y2)
                 + 4.69149 * (y1 ^ 2 + y1 * y2 + y2 ^ 2)
                 + SP * (-8.02566e-3 + -1.46775e-2 * (y1 + y2))))
        by ring
    end.
    apply Rmult_lt_0_compat; [lra | nra].
Qed.

(** X14.  Degassing with warming, O2: at a fixed salinity of [0, 40] and
    within [-2, 40], the solubility of O2 is strictly smaller at a
    temperature at least 1 degree higher. *)
Theorem warming_degasses_O2 (SP pt1 pt2 : R) :
  0 <= SP <= 40 -> -2 <= pt1 -> pt1 + 1 <= pt2 -> pt2 <= 40 ->
  exists v1 v2,
    O2sol_SP_pt SP pt1 = Ok v1 /\ O2sol_SP_pt SP pt2 = Ok v2 /\ v2 < v1.
Proof.
  intros HSP H1 Hgap H2.
  assert (Hlt : pt1 < pt2) by lra.
  pose proof (log_ratio_bounds (pt1 * 1.00024) ltac:(lra)) as Hy1.
  pose proof (log_ratio_bounds (pt2 * 1.00024) ltac:(lra)) as Hy2.
  pose proof (log_ratio_decreasing (pt1 * 1.00024) (pt2 * 1.00024)
                ltac:(lra) ltac:(lra) ltac:(lra)) as Hdec.
  set (y1 := ln ((298.15 - pt1 * 1.00024) / (273.15 + pt1 * 1.00024))) in *.
  set (y2 := ln ((298.15 - pt2 * 1.00024) / (273.15 + pt2 * 1.00024))) in *.
  pose proof (quadratic_form_bounds y1 y2 Hy1 Hy2) as Hq.
  pose proof (quartic_form_nonneg y1 y2) as Hu.
  set (q := y1 ^ 2 + y1 * y2 + y2 ^ 2) in *.
  set (u := y1 ^ 4 + y1 ^ 3 * y2 + y1 ^ 2 * y2 ^ 2 + y1 * y2 ^ 3 + y2 ^ 4) in *.
  assert (Ht : -0.0625 <= (y1 + y2) * (y1 ^ 2 + y2 ^ 2) <= 0.0625).
  { assert (0 <= y1 ^ 2 <= 0.0625) by nra.
    assert (0 <= y2 ^ 2 <= 0.0625) by nra.
    split; nra. }
  assert (Hxs : 0 <= SP * (0.4 - (y1 + y2))) by (apply Rmult_le_pos; lra).
  assert (Hxq : 0 <= SP * (0.1875 - q)) by (apply Rmult_le_pos; lra).
  assert (Hxq' : 0 <= (40 - SP) * q) by (apply Rmult_le_pos; lra).
  sol_pair. fold y1 y2. apply exp_increasing. apply lt_of_sub_pos.
  match goal with |- 0 < ?e =>
    replace e
      with ((y1 - y2)
            * (3.20291 + 4.17887 * (y1 + y2) + 5.10006 * q
               + -9.86643e-2 * ((y1 + y2) * (y1 ^ 2 + y2 ^ 2))
               + 3.80369 * u
               + SP * (-7.70028e-3 + -1.13864e-2 * (y1 + y2)
                       + -9.51519e-3 * q)))
      by (unfold q, u; ring)
  end.
  apply Rmult_lt_0_compat; [lra | nra].
Qed.

(** The exponent of [Krsol_SP_pt] falls as the Kelvin temperature [Y]
    rises. *)
Lemma Kr_exponent_decreasing (x Y1 Y2 : R) :
  0 <= x <= 40 -> 271 <= Y1 -> Y1 < Y2 -> Y2 <= 313.2 ->
  -112.6840 + 153.5817 * 100 / Y2 + 74.4690 * ln (Y2 * 1e-2)
  + -10.0189 * (Y2 * 1e-2)
  + x * (-0.011213 + Y2 * 1e-2 * (-0.001844 + 0.0011201 * (Y2 * 1e-2)))
  < -112.6840 + 153.5817 * 100 / Y1 + 74.4690 * ln (Y1 * 1e-2)
    + -10.0189 * (Y1 * 1e-2)
    + x * (-0.011213 + Y1 * 1e-2 * (-0.001844 + 0.0011201 * (Y1 * 1e-2))).
Proof.
  intros Hx H1 Hlt H2.
  set (z1 := Y1 * 1e-2). set (z2 := Y2 * 1e-2).
  assert (Hz1 : 2.71 <= z1) by (unfold z1; lra).
  assert (Hz2 : z2 <= 3.132) by (unfold z2; lra).
  assert (Hz : z1 < z2) by (unfold z1, z2; lra).
  set (w1 := 100 / Y1). set (w2 := 100 / Y2).
  assert (Hw1 : w1 * z1 = 1) by (unfold w1, z1; field; lra).
  assert (Hw2 : w2 * z2 = 1) by (unfold w2, z2; field; lra).
  replace (153.5817 * 100 / Y1) with (153.5817 * w1) by (unfold w1; field; lra).
  replace (153.5817 * 100 / Y2) with (153.5817 * w2) by (unfold w2; field; lra).
  assert (Hw1b : 0.3192 < w1 < 0.3691) by (split; nra).
  assert (Hw2b : 0.3192 < w2 < 0.3691) by (split; nra).
  pose proof (ln_step z1 z2 ltac:(lra) Hz) as Hln.
  replace ((z2 - z1) / z1) with ((z2 - z1) * w1) in Hln
    by (unfold w1, z1; field; lra).
  assert (Hw : w2 - w1 = - ((z2 - z1) * w1 * w2)).
  { replace (- ((z2 - z1) * w1 * w2)) with (w2 * (w1 * z1) - w1 * (w2 * z2))
      by ring.
    rewrite Hw1, Hw2. ring. }
  set (d := z2 - z1) in *. assert (Hd : 0 < d) by (unfold d; lra).
  assert (Hk : w1 * (74.4690 - 153.5817 * w2) <= 9.5) by nra.
  assert (Hxb : x * (-0.001844 + 0.0011201 * (z1 + z2)) <= 0.21).
  { assert (0 <= x * (6.264 - (z1 + z2))) by (apply Rmult_le_pos; lra). nra. }
  assert (Hmain : 153.5817 * (w2 - w1) + 74.4690 * (ln z2 - ln z1)
                  + -10.0189 * d
                  + d * (x * (-0.001844 + 0.0011201 * (z1 + z2))) < 0).
  { rewrite Hw.
    assert (74.4690 * (ln z2 - ln z1) <= 74.4690 * (d * w1)) by lra.
    assert (Hdk : d * (w1 * (74.4690 - 153.5817 * w2)) <= d * 9.5)
      by (apply Rmult_le_compat_l; lra).
    assert (Hdx : d * (x * (-0.001844 + 0.0011201 * (z1 + z2))) <= d * 0.21)
      by (apply Rmult_le_compat_l; lra).
    nra. }
  unfold d in Hmain. nra.
Qed.

(** The exponent of [CO2sol_SP_pt] at salinity [x] and Kelvin temperature
    [Y]. *)
Local Abbreviation CO2_exponent x Y :=
  (-162.8301 + 218.2968 * 100 / Y + 90.9241 * ln (Y * 1e-2)
   + -1.47696 * (Y * 1e-2) ^ 2
   + x * (0.025695 + -0.025225 * (Y * 1e-2) + 0.0049867 * (Y * 1e-2) ^ 2))
  (only parsing).

(** It falls on each half of the range. *)
Lemma CO2_exponent_step (x Y1 Y2 : R) :
  0 <= x <= 40 -> Y1 < Y2 ->
  (271 <= Y1 /\ Y2 <= 293) \/ (293 <= Y1 /\ Y2 <= 313.2) ->
  CO2_exponent x Y2 < CO2_exponent x Y1.
Proof.
  intros Hx Hlt Hcase.
  set (z1 := Y1 * 1e-2). set (z2 := Y2 * 1e-2).
  assert (Hz : z1 < z2) by (unfold z1, z2; lra).
  assert (HY1 : 271 <= Y1) by lra.
  assert (HY2 : Y2 <= 313.2) by lra.
  set (w1 := 100 / Y1). set (w2 := 100 / Y2).
  assert (Hw1 : w1 * z1 = 1) by (unfold w1, z1; field; lra).
  assert (Hw2 : w2 * z2 = 1) by (unfold w2, z2; field; lra).
  replace (218.2968 * 100 / Y1) with (218.2968 * w1) by (unfold w1; field; lra).
  replace (218.2968 * 100 / Y2) with (218.2968 * w2) by (unfold w2; field; lra).
  pose proof (ln_step z1 z2 ltac:(unfold z1; lra) Hz) as Hln.
  replace ((z2 - z1) / z1) with ((z2 - z1) * w1) in Hln
    by (unfold w1, z1; field; lra).
  assert (Hzb : 2.71 <= z1 /\ z2 <= 3.132) by (unfold z1, z2; lra).
  assert (Hw : w2 - w1 = - ((z2 - z1) * w1 * w2)).
  { replace (- ((z2 - z1) * w1 * w2)) with (w2 * (w1 * z1) - w1 * (w2 * z2))
      by ring.
    rewrite Hw1, Hw2. ring. }
  set (d := z2 - z1) in *. assert (Hd : 0 < d) by (unfold d; lra).
  assert (Hxb : x * (-0.025225 + 0.0049867 * (z1 + z2)) <= 0.25).
  { assert (0 <= x * (6.264 - (z1 + z2))) by (apply Rmult_le_pos; lra). nra. }
  assert (Hk : w1 * (90.9241 - 218.2968 * w2) + -1.47696 * (z1 + z2) <= -1).
  { destruct Hcase as [[Ha Hb] | [Ha Hb]].
    - assert (2.71 <= z1 /\ z2 <= 2.93) by (unfold z1, z2; lra).
      assert (0.3412 < w1 < 0.3691) by (split; nra).
      assert (0.3412 < w2 < 0.3691) by (split; nra).
      nra.
    - assert (2.93 <= z1 /\ z2 <= 3.132) by (unfold z1, z2; lra).
      assert (0.3192 < w1 < 0.3413) by (split; nra).
      assert (0.3192 < w2 < 0.3413) by (split; nra).
      nra. }
  assert (Hmain : 218.2968 * (w2 - w1) + 90.9241 * (ln z2 - ln z1)
                  + -1.47696 * (d * (z1 + z2))
                  + d * (x * (-0.025225 + 0.0049867 * (z1 + z2))) < 0).
  { rewrite Hw.
    assert (90.9241 * (ln z2 - ln z1) <= 90.9241 * (d * w1)) by lra.
    assert (Hdk : d * (w1 * (90.9241 - 218.2968 * w2) + -1.47696 * (z1 + z2))
                  <= d * -1)
      by (apply Rmult_le_compat_l; lra).
    assert (Hdx : d * (x * (-0.025225 + 0.0049867 * (z1 + z2))) <= d * 0.25)
      by (apply Rmult_le_compat_l; lra).
    nra. }
  unfold d in Hmain. nra.
Qed.

Lemma CO2_exponent_decreasing (x Y1 Y2 : R) :
  0 <= x <= 40 -> 271 <= Y1 -> Y1 < Y2 -> Y2 <= 313.2 ->
  CO2_exponent x Y2 < CO2_exponent x Y1.
Proof.
  intros Hx H1 Hlt H2.
  destruct (Rle_or_lt Y2 293) as [Hlow | Hhigh].
  - apply CO2_exponent_step; [assumption | assumption | left; lra].
  - destruct (Rle_or_lt 293 Y1) as [Hup | Hmid].
    + apply CO2_exponent_step; [assumption | assumption | right; lra].
    + apply Rlt_trans with (CO2_exponent x 293).
      * apply CO2_exponent_step; [assumption | assumption | right; lra].
      * apply CO2_exponent_step; [assumption | assumption | left; lra].
Qed.

(** X15.  Degassing with warming, Kr and CO2: at a fixed salinity of
    [0, 40] and within [-2, 40], their solubilities are strictly smaller at
    a temperature at least 1 degree higher. *)
Theorem warming_degasses_Kr_CO2 (SP pt1 pt2 : R) :
  0 <= SP <= 40 -> -2 <= pt1 -> pt1 + 1 <= pt2 -> pt2 <= 40 ->
  Forall (fun f : R -> R -> result R =>
            exists v1 v2, f SP pt1 = Ok v1 /\ f SP pt2 = Ok v2 /\ v2 < v1)
    [Krsol_SP_pt; CO2sol_SP_pt].
Proof.
  intros HSP H1 Hgap H2.
  assert (Hlt : pt1 < pt2) by lra.
  repeat (apply Forall_cons; split; [sol_pair|]); [| |apply Forall_nil_2].
  - apply Rmult_lt_compat_r; [lra|]. apply exp_increasing.
    apply Kr_exponent_decreasing; lra.
  - apply exp_increasing.
    apply (CO2_exponent_decreasing SP (pt1 * 1.00024 + 273.15)
             (pt2 * 1.00024 + 273.15)); lra.
Qed.

(** X18.  Of the sixteen functions the module defines, the ones that raise
    are [N2Osol_SP_pt] and [N2Osol], at every input and under every
    provider; the other fourteen return at every input.  Both failing names
    are in [__all__]. *)
Theorem only_N2O_functions_raise
    {G : GSW} (SP pt SA CT p long lat : R) :
  (filter (fun d : string * callable =>
             Is_true match match d.2 with
                           | SP_pt_function f => f SP pt
                           | SA_CT_function f => f SA CT p long lat
                           end with
                     | Raise _ => true
                     | Ok _ => false
                     end) defs).*1
  = ["N2Osol_SP_pt"; "N2Osol"]%string /\
  Forall (fun name => name ∈ __all__) ["N2Osol_SP_pt"; "N2Osol"]%string.
Proof.
  split.
  - reflexivity.
  - repeat (apply Forall_cons; split;
            [apply (bool_decide_unpack _); vm_compute; exact I|]).
    apply Forall_nil_2.
Qed.

(** ** The properties above at concrete inputs *)

Lemma diff_salinity_factor_witness :
  contains AEa_dict "He" = true /\ 20 <> -273.15 /\
  exists D0 : R,
    diff (G := still_water) 1 0 20 "He" = Ok D0 /\
    diff (G := still_water) 1 35 20 "He" = Ok (D0 * (1 - 0.049 * 35 / 35.5)).
Proof.
  split; [reflexivity|]. split; [lra|].
  apply (diff_salinity_factor (G := still_water) "He" 0 35 20).
  - reflexivity.
  - lra.
Defined.

Lemma diff_sign_witness :
  contains AEa_dict "CO2" = true /\ -2 <= 20 <= 40 /\
  exists D : R,
    diff (G := still_water) 1 800 20 "CO2" = Ok D /\
    (800 <= 724 -> 0 < D) /\
    (725 <= 800 -> D < 0).
Proof.
  split; [reflexivity|]. split; [lra|].
  apply (diff_sign (G := still_water) "CO2" 0 800 20).
  - reflexivity.
  - lra.
Defined.

Lemma diff_strictly_increasing_in_pt_witness :
  contains AEa_dict "N2" = true /\ 0 <= 35 <= 40 /\
  -2 <= 0 /\ 0 + 1 <= 20 /\ 20 <= 40 /\
  exists D1 D2 : R,
    diff (G := still_water) 1 35 0 "N2" = Ok D1 /\
    diff (G := still_water) 1 35 20 "N2" = Ok D2 /\
    D1 < D2.
Proof.
  split; [reflexivity|]. split; [lra|]. split; [lra|]. split; [lra|].
  split; [lra|].
  apply (diff_strictly_increasing_in_pt (G := still_water) "N2" 0 35 0 20).
  - reflexivity.
  - lra.
  - lra.
  - lra.
  - lra.
Defined.


Lemma schmidt_positive_witness :
  contains AEa_dict "Ar" = true /\ 0 <= 35 <= 40 /\ -2 <= 20 <= 40 /\
  exists Sc : R, schmidt (G := still_water) 2 35 20 "Ar" = Ok Sc /\ 0 < Sc.
Proof.
  split; [reflexivity|]. split; [lra|]. split; [lra|].
  apply (schmidt_positive (G := still_water) "Ar" 0 35 20).
  - reflexivity.
  - lra.
  - lra.
  - simpl. lra.
Defined.

Lemma visc_times_density_turning_point_witness :
  0 <= 35 <= 40 /\ -2 <= 0 /\ 0 + 0.5 <= 20 /\ 20 <= 38.7 /\
  visc (G := still_water) 35 20 * 1000 < visc (G := still_water) 35 0 * 1000.
Proof.
  split; [lra|]. split; [lra|]. split; [lra|]. split; [lra|].
  apply (visc_times_density_turning_point (G := still_water) 35 0 20).
  - simpl. lra.
  - simpl. lra.
  - lra.
  - lra.
  - lra.
  - lra.
  - lra.
Defined.

Lemma solubilities_positive_on_ocean_range_witness :
  0 <= 35 <= 40 /\ -2 <= 20 <= 40 /\
  Forall (fun f : R -> R -> result R => exists v, f 35 20 = Ok v /\ 0 < v)
    [O2sol_SP_pt; Hesol_SP_pt; Nesol_SP_pt; Arsol_SP_pt; Krsol_SP_pt;
     N2sol_SP_pt; CO2sol_SP_pt].
Proof.
  split; [lra|]. split; [lra|].
  apply (solubilities_positive_on_ocean_range 35 20); lra.
Defined.

Lemma salting_out_log_family_witness :
  0 <= 0 /\ 0 + 1 <= 35 /\ 35 <= 40 /\ -2 <= 20 <= 40 /\
  Forall (fun f : R -> R -> result R =>
            exists v1 v2, f 0 20 = Ok v1 /\ f 35 20 = Ok v2 /\ v2 < v1)
    [O2sol_SP_pt; Nesol_SP_pt; Arsol_SP_pt; N2sol_SP_pt].
Proof.
  split; [lra|]. split; [lra|]. split; [lra|]. split; [lra|].
  apply (salting_out_log_family 0 35 20); lra.
Defined.

Lemma salting_out_weiss_family_witness :
  0 <= 0 /\ 0 + 1 <= 35 /\ 35 <= 40 /\ -2 <= 20 <= 40 /\
  Forall (fun f : R -> R -> result R =>
            exists v1 v2, f 0 20 = Ok v1 /\ f 35 20 = Ok v2 /\ v2 < v1)
    [Hesol_SP_pt; Krsol_SP_pt; CO2sol_SP_pt].
Proof.
  split; [lra|]. split; [lra|]. split; [lra|]. split; [lra|].
  apply (salting_out_weiss_family 0 35 20); lra.
Defined.

Lemma warming_degasses_Ne_Ar_N2_witness :
  0 <= 35 <= 40 /\ -2 <= 0 /\ 0 + 1 <= 30 /\ 30 <= 40 /\
  Forall (fun f : R -> R -> result R =>
            exists v1 v2, f 35 0 = Ok v1 /\ f 35 30 = Ok v2 /\ v2 < v1)
    [Nesol_SP_pt; Arsol_SP_pt; N2sol_SP_pt].
Proof.
  split; [lra|]. split; [lra|]. split; [lra|]. split; [lra|].
  apply (warming_degasses_Ne_Ar_N2 35 0 30); lra.
Defined.

Lemma warming_degasses_O2_witness :
  0 <= 35 <= 40 /\ -2 <= 0 /\ 0 + 1 <= 30 /\ 30 <= 40 /\
  exists v1 v2,
    O2sol_SP_pt 35 0 = Ok v1 /\ O2sol_SP_pt 35 30 = Ok v2 /\ v2 < v1.
Proof.
  split; [lra|]. split; [lra|]. split; [lra|]. split; [lra|].
  apply (warming_degasses_O2 35 0 30); lra.
Defined.

Lemma warming_degasses_Kr_CO2_witness :
  0 <= 35 <= 40 /\ -2 <= 0 /\ 0 + 1 <= 30 /\ 30 <= 40 /\
  Forall (fun f : R -> R -> result R =>
            exists v1 v2, f 35 0 = Ok v1 /\ f 35 30 = Ok v2 /\ v2 < v1)
    [Krsol_SP_pt; CO2sol_SP_pt].
Proof.
  split; [lra|]. split; [lra|]. split; [lra|]. split; [lra|].
  apply (warming_degasses_Kr_CO2 35 0 30); lra.
Defined.
